(** * PyCLP 0.2, [setup.py]: the build-configuration script

    A shallow embedding of [tags/pyclp_0_2/setup.py].  The script reads the
    process environment, possibly asks the operator for the ECLiPSe
    installation directory, maps [platform.system()] to an ECLiPSe
    architecture tag, and hands an [Extension] description to distutils'
    [setup].

    The script is a sequence of module-level statements.  Its effects
    (reading standard input, writing standard output, querying the file
    system) are modelled by explicit state passing over a [World]; the
    interpreter bindings it only reads ([os.environ], [os.stat],
    [platform.system()], the flavour of [os.path]) form a [Host]. *)

From Stdlib Require Import String Ascii List Bool Arith Lia.
From stdpp Require Import base option gmap strings list.

Local Open Scope string_scope.
Local Open Scope list_scope.

(** ** Python [str] operations used by the script and by [os.path] *)

Module PyStr.

(** [not s] *)
Definition is_empty (s : string) : bool :=
  match s with
  | EmptyString => true
  | String _ _ => false
  end.

(** [s.startswith(pre)] *)
Definition startswith (s pre : string) : bool := String.prefix pre s.

(** [s.endswith(suf)] *)
Fixpoint endswith (s suf : string) : bool :=
  String.eqb s suf ||
  match s with
  | EmptyString => false
  | String _ s' => endswith s' suf
  end.

(** [s[:n]] *)
Definition slice_to (n : nat) (s : string) : string := String.substring 0 n s.

(** [s[n:]] *)
Fixpoint slice_from (n : nat) (s : string) : string :=
  match n, s with
  | O, _ => s
  | S _, EmptyString => EmptyString
  | S n', String _ s' => slice_from n' s'
  end.

(** [s[i:j]] for [i <= j] *)
Definition slice (i j : nat) (s : string) : string := String.substring i (j - i) s.

(** [s[-1:]] *)
Fixpoint last1 (s : string) : string :=
  match s with
  | EmptyString => EmptyString
  | String c EmptyString => s
  | String _ s' => last1 s'
  end.

(** [s[0:1]] *)
Definition first1 (s : string) : string := slice 0 1 s.

Fixpoint map_chars (f : ascii -> ascii) (s : string) : string :=
  match s with
  | EmptyString => EmptyString
  | String c s' => String (f c) (map_chars f s')
  end.

(** [s.replace(a, b)] for one-character [a] and [b] *)
Definition replace_char (a b : ascii) (s : string) : string :=
  map_chars (fun c => if Ascii.eqb c a then b else c) s.

(** Case mapping on the ASCII letters; strings here are byte strings. *)
Definition ascii_upper (c : ascii) : ascii :=
  let n := nat_of_ascii c in
  if (97 <=? n)%nat && (n <=? 122)%nat then ascii_of_nat (n - 32) else c.

Definition ascii_lower (c : ascii) : ascii :=
  let n := nat_of_ascii c in
  if (65 <=? n)%nat && (n <=? 90)%nat then ascii_of_nat (n + 32) else c.

Definition upper : string -> string := map_chars ascii_upper.
Definition lower : string -> string := map_chars ascii_lower.

(** [s.find(sub, start)], with [None] for [-1] *)
Definition find (sub : string) (start : nat) (s : string) : option nat :=
  String.index start sub s.

End PyStr.

(** ** [os.path] on a POSIX host: [posixpath.join] *)

Module posixpath.

Definition sep : string := "/".

(** One round of the [for b in p] loop of [posixpath.join]. *)
Definition join_step (path b : string) : string :=
  if PyStr.startswith b sep then b
  else if PyStr.is_empty path || PyStr.endswith path sep then path +:+ b
  else path +:+ (sep +:+ b).

Definition join (a : string) (p : list string) : string :=
  fold_left join_step p a.

End posixpath.

(** ** [os.path] on a Windows host: [ntpath.join] (as in CPython 3.11) *)

Module ntpath.

Definition sep : string := "\".
Definition altsep : string := "/".
Definition colon : string := ":".
Definition unc_prefix : string := "\\?\UNC\".

(** [c in seps] for a string [c] of length at most one ([seps = '\\/']);
    the empty string is a substring of every string. *)
Definition in_seps (c : string) : bool :=
  PyStr.is_empty c || String.eqb c sep || String.eqb c altsep.

Definition splitdrive (p : string) : string * string :=
  if (2 <=? String.length p)%nat then
    let normp := PyStr.replace_char "/" "\" p in
    if String.eqb (PyStr.slice 0 2 normp) (sep +:+ sep) then
      let start :=
        if String.eqb (PyStr.upper (PyStr.slice_to 8 normp)) unc_prefix
        then 8 else 2 in
      match PyStr.find sep start normp with
      | None => (p, EmptyString)
      | Some index =>
          match PyStr.find sep (index + 1) normp with
          | None => (p, EmptyString)
          | Some index2 => (PyStr.slice_to index2 p, PyStr.slice_from index2 p)
          end
      end
    else if String.eqb (PyStr.slice 1 2 normp) colon then
      (PyStr.slice_to 2 p, PyStr.slice_from 2 p)
    else (EmptyString, p)
  else (EmptyString, p).

(** One round of the [for p in paths] loop; the state is
    [(result_drive, result_path)]. *)
Definition join_step (acc : string * string) (p : string) : string * string :=
  let '(result_drive, result_path) := acc in
  let '(p_drive, p_path) := splitdrive p in
  let relative (result_drive : string) :=
    let result_path :=
      if negb (PyStr.is_empty result_path)
         && negb (in_seps (PyStr.last1 result_path))
      then result_path +:+ sep else result_path in
    (result_drive, result_path +:+ p_path) in
  if negb (PyStr.is_empty p_path) && in_seps (PyStr.first1 p_path) then
    (if negb (PyStr.is_empty p_drive) || PyStr.is_empty result_drive
     then p_drive else result_drive, p_path)
  else if negb (PyStr.is_empty p_drive) && negb (String.eqb p_drive result_drive) then
    if negb (String.eqb (PyStr.lower p_drive) (PyStr.lower result_drive))
    then (p_drive, p_path)
    else relative p_drive
  else relative result_drive.

Definition join (path : string) (paths : list string) : string :=
  let '(result_drive, result_path) := fold_left join_step paths (splitdrive path) in
  if negb (PyStr.is_empty result_path)
     && negb (in_seps (PyStr.first1 result_path))
     && negb (PyStr.is_empty result_drive)
     && negb (String.eqb (PyStr.last1 result_drive) colon)
  then result_drive +:+ (sep +:+ result_path)
  else result_drive +:+ result_path.

End ntpath.

(** ** The host: what the interpreter binds before the script runs *)

(** What [os.stat] can find at a path. *)
Inductive st_kind : Type :=
| S_IFREG   (* regular file *)
| S_IFDIR   (* directory *)
| S_IFOTHER (* device, socket, fifo *).

Record Host : Type := {
  environ : gmap string string;            (* [os.environ] *)
  os_stat : string -> option st_kind;      (* [os.stat(path)], [None] for [OSError] *)
  platform_system : string                 (* [platform.system()] *)
}.

(** [os.path.join]: [os.path] is [ntpath] on the hosts where
    [platform.system()] answers ['Windows'] and [posixpath] on Linux.  On
    any other platform the script stops before it joins a path. *)
Definition os_path_join (h : Host) : string -> list string -> string :=
  if decide (platform_system h = "Windows") then ntpath.join else posixpath.join.

(** ** The world: standard input, and what the script has done so far

    Standard input is a finite sequence of lines; once it is used up,
    [input] raises [EOFError]. *)

Inductive event : Type :=
| EvPrompt (text : string)   (* [input(text)] wrote its prompt and waits for a line *)
| EvStat (path : string)     (* [os.path.exists(path)] asked the file system *)
| EvPrint (text : string).   (* [print(text)] *)

Record World : Type := {
  stdin : list string;     (* the lines the operator will still type *)
  trace : list event       (* events so far, oldest first *)
}.

Definition log (e : event) (w : World) : World :=
  {| stdin := stdin w; trace := trace w ++ [e] |}.

(** ** Computations *)

Inductive exn : Type :=
| EOFError      (* [input] at the end of standard input *)
| RuntimeError. (* a bare [raise] with no active exception; the
                   specification's UnsupportedPlatform *)

Inductive outcome (A : Type) : Type :=
| Return (a : A)
| Raise (e : exn)
| OutOfFuel.
Arguments Return {A} a.
Arguments Raise {A} e.
Arguments OutOfFuel {A}.

Definition M (A : Type) : Type := World -> outcome A * World.

Definition ret {A} (a : A) : M A := fun w => (Return a, w).

Definition bind {A B} (m : M A) (k : A -> M B) : M B :=
  fun w =>
    match m w with
    | (Return a, w') => k a w'
    | (Raise e, w') => (Raise e, w')
    | (OutOfFuel, w') => (OutOfFuel, w')
    end.

Definition raise {A} (e : exn) : M A := fun w => (Raise e, w).

Declare Scope py_scope.
Delimit Scope py_scope with py.
Notation "x <- m ;; k" := (bind m (fun x => k))
  (at level 100, m at next level, right associativity) : py_scope.
Notation "m ;;; k" := (bind m (fun _ => k))
  (at level 100, right associativity) : py_scope.
Local Open Scope py_scope.

(** [input(prompt)]: the prompt is written, then one line is read. *)
Definition input (prompt : string) : M string :=
  fun w =>
    match stdin w with
    | [] => (Raise EOFError, log (EvPrompt prompt) w)
    | line :: rest =>
        (Return line, {| stdin := rest; trace := trace w ++ [EvPrompt prompt] |})
    end.

(** [print(text)] *)
Definition print (text : string) : M unit :=
  fun w => (Return tt, log (EvPrint text) w).

(** [os.path.exists(path)]: [os.stat] succeeds. *)
Definition os_path_exists (h : Host) (path : string) : M bool :=
  fun w =>
    (Return match os_stat h path with Some _ => true | None => false end,
     log (EvStat path) w).

(** ** The script *)

Definition LF : string := String "010" EmptyString.

Definition prompt_text : string :=
  "ECLIPSEDIR environmental variable is not defined " +:+ LF +:+
  "please provide path to ECLiPSe installation: ".

(** Lines 35-41, the [while(1)] loop.  Every round reads one line of
    standard input, so [fuel] bounds the number of rounds. *)
Fixpoint ask_eclipsedir (h : Host) (fuel : nat) : M string :=
  match fuel with
  | O => fun w => (OutOfFuel, w)
  | S fuel' =>
      eclipsedir <- input prompt_text ;;
      found <- os_path_exists h eclipsedir ;;
      if found then ret eclipsedir
      else (print "Invalid Path" ;;; ask_eclipsedir h fuel')
  end.

(** Lines 34-43: the value bound to [eclipsedir]. *)
Definition eclipsedir (h : Host) : M string :=
  match environ h !! "ECLIPSEDIR" with
  | None => fun w => ask_eclipsedir h (S (length (stdin w))) w
  | Some value => ret value
  end.

(** Lines 45-51: the value bound to [arch]. *)
Definition arch (h : Host) : M string :=
  if decide (platform_system h = "Linux") then ret "i386_linux"
  else if decide (platform_system h = "Windows") then ret "i386_nt"
  else (print "Platform not supported" ;;; raise RuntimeError).

(** Lines 53-54. *)
Definition eclise_include_path (h : Host) (eclipsedir arch : string) : string :=
  os_path_join h eclipsedir ["include"; arch].

Definition eclipse_lib_path (h : Host) (eclipsedir arch : string) : string :=
  os_path_join h eclipsedir ["lib"; arch].

(** [distutils.extension.Extension], the fields the script sets. *)
Module Extension.
Record t : Type := {
  name : string;
  sources : list string;
  library_dirs : list string;
  libraries : list string;
  include_dirs : list string
}.
End Extension.

(** Lines 55-60. *)
Definition pyclp_module (h : Host) (eclipsedir arch : string) : Extension.t :=
  {| Extension.name := "pyclp.pyclp";
     Extension.sources := ["src/pyclp/pyclp.pyx"];
     Extension.library_dirs := [eclipse_lib_path h eclipsedir arch];
     Extension.libraries := ["eclipse"];
     Extension.include_dirs := [eclise_include_path h eclipsedir arch; "src/pyclp/"] |}.

(** The command classes of Cython's distutils. *)
Inductive command : Type := build_ext.

(** The keyword arguments of the call of [distutils.core.setup]. *)
Module Setup.
Record t : Type := {
  name : string;
  version : string;
  author : string;
  maintainer : string;
  author_email : string;
  url : string;
  description : string;
  license : string;
  cmdclass : gmap string command;
  ext_modules : list Extension.t;
  package_dir : gmap string string;
  packages : list string
}.
End Setup.

(** Lines 62-73. *)
Definition setup (pyclp_module : Extension.t) : Setup.t :=
  {| Setup.name := "PyCLP";
     Setup.version := "0.2";
     Setup.author := "Oreste Bernardi";
     Setup.maintainer := "Oreste Bernardi";
     Setup.author_email := "<name>@<name>.eu  name=oreste";
     Setup.url := "pyclp.berlios.de";
     Setup.description := "Interface to ECLiPSe CLP";
     Setup.license := "Simplified BSD";
     Setup.cmdclass := {[ "build_ext" := build_ext ]};
     Setup.ext_modules := [pyclp_module];
     Setup.package_dir := {[ "" := "src" ]};
     Setup.packages := ["pyclp"] |}.

(** Lines 53-60 once more, as the statements they are: assignments to
    the globals of the module.  A global holds a string or an [Extension].
    Line 53 looks up [eclipsedir], then [arch] ([NameError] for an unbound
    name), and [os.path.join] wants strings ([TypeError] otherwise). *)
Inductive value : Type :=
| VStr (s : string)
| VExt (m : Extension.t).

Inductive py_error : Type :=
| NameError (name : string)
| TypeError.

Definition bind_pyclp_module (h : Host) (globals : gmap string value)
  : py_error + gmap string value :=
  match globals !! "eclipsedir" with
  | None => inl (NameError "eclipsedir")
  | Some v1 =>
      match globals !! "arch" with
      | None => inl (NameError "arch")
      | Some v2 =>
          match v1, v2 with
          | VStr eclipsedir, VStr arch =>
              let globals :=
                <["eclise_include_path" := VStr (eclise_include_path h eclipsedir arch)]>
                  globals in
              let globals :=
                <["eclipse_lib_path" := VStr (eclipse_lib_path h eclipsedir arch)]>
                  globals in
              inr (<["pyclp_module" := VExt (pyclp_module h eclipsedir arch)]> globals)
          | _, _ => inl TypeError
          end
      end
  end.

(** The whole script, lines 34-73: what [setup] is called with. *)
Definition setup_py (h : Host) : M Setup.t :=
  eclipsedir <- eclipsedir h ;;
  arch <- arch h ;;
  ret (setup (pyclp_module h eclipsedir arch)).

(** Running from a fresh process: nothing has happened yet. *)
Definition start (lines : list string) : World := {| stdin := lines; trace := [] |}.

(** ** Vocabulary of the specification *)

#[global] Instance event_eq_dec : EqDecision event.
Proof. solve_decision. Defined.

(** How often an event occurs in a trace. *)
Definition occurrences (e : event) (tr : list event) : nat :=
  length (filter (fun e' => e' = e) tr).

(** The events of the rounds of the loop that turn down the paths [bad]. *)
Definition rejected (bad : list string) : list event :=
  flat_map (fun p => [EvPrompt prompt_text; EvStat p; EvPrint "Invalid Path"]) bad.

(** The events of the round that accepts [path]. *)
Definition accepted (path : string) : list event :=
  [EvPrompt prompt_text; EvStat path].

Definition is_prompt (e : event) : bool :=
  match e with EvPrompt _ => true | _ => false end.

(** The invariant of the data model, read generously: [path] lies below
    [root] and is specific to [arch] when it starts with the one and ends
    with the other. *)
Definition is_subpath (root arch path : string) : bool :=
  PyStr.startswith path root && PyStr.endswith path arch.

(** A root is validated in a run when the run has asked the file system
    about it and the file system has it. *)
Definition validated (h : Host) (tr : list event) (root : string) : Prop :=
  EvStat root ∈ tr ∧ is_Some (os_stat h root).



(** What [posixpath.join(root, sub, arch)] amounts to when neither [sub]
    nor [arch] starts with a slash. *)
Definition posix_below (root sub arch : string) : string :=
  if PyStr.is_empty root || PyStr.endswith root "/"
  then root +:+ sub +:+ "/" +:+ arch
  else root +:+ "/" +:+ sub +:+ "/" +:+ arch.

(** A name with no drive and no separator at either end, as ["include"],
    ["lib"] and the tags are. *)
Definition plain_name (x : string) : Prop :=
  ntpath.splitdrive x = ("", x) /\
  PyStr.is_empty x = false /\
  ntpath.in_seps (PyStr.first1 x) = false /\
  ntpath.in_seps (PyStr.last1 x) = false.

(** The paths that a stretch of the trace has asked the file system about,
    in order. *)
Fixpoint stat_paths (tr : list event) : list string :=
  match tr with
  | [] => []
  | EvStat p :: tr' => p :: stat_paths tr'
  | _ :: tr' => stat_paths tr'
  end.

(** ** Sample hosts *)

(** A disk with an ECLiPSe installation in [/opt/eclipse] and, in the
    working directory, the script itself. *)
Definition disk (path : string) : option st_kind :=
  if decide (path = "/opt/eclipse") then Some S_IFDIR
  else if decide (path = "/opt/eclipse/") then Some S_IFDIR
  else if decide (path = "setup.py") then Some S_IFREG
  else None.

Definition host (env : gmap string string) (system : string) : Host :=
  {| environ := env; os_stat := disk; platform_system := system |}.

(** Another machine: other variables in the environment, and a regular
    file where [disk] has the installation directory. *)
Definition other_disk (path : string) : option st_kind :=
  if decide (path = "/opt/eclipse") then Some S_IFREG
  else if decide (path = "/home") then Some S_IFDIR
  else None.

Definition other_host : Host :=
  {| environ := {[ "HOME" := "/root" ]};
     os_stat := other_disk;
     platform_system := "Linux" |}.

(** Closes a goal that supposes a run to have ended otherwise than it did. *)
Ltac no_such_run :=
  intros; repeat match goal with H : exists _, _ |- _ => destruct H end; discriminate.

(** * Properties *)

(** ** The two [os.path] flavours on the script's own arguments *)

Example posix_join_opt :
  posixpath.join "/opt/eclipse" ["include"; "i386_linux"] = "/opt/eclipse/include/i386_linux".
Proof. reflexivity. Qed.

Example nt_join_drive :
  ntpath.join "C:\eclipse" ["include"; "i386_nt"] = "C:\eclipse\include\i386_nt".
Proof. reflexivity. Qed.

Example nt_join_unc :
  ntpath.join "\\srv\share" ["lib"; "i386_nt"] = "\\srv\share\lib\i386_nt".
Proof. reflexivity. Qed.

(** ** The prompt loop *)

Section Loop.

Variable h : Host.

Lemma ask_eclipsedir_eof fuel w :
  stdin w = [] ->
  ask_eclipsedir h (S fuel) w = (Raise EOFError, log (EvPrompt prompt_text) w).
Proof.
  intros Hin. cbn [ask_eclipsedir]. unfold bind, input. now rewrite Hin.
Qed.

Lemma ask_eclipsedir_accept fuel line rest tr kind :
  os_stat h line = Some kind ->
  ask_eclipsedir h (S fuel) {| stdin := line :: rest; trace := tr |} =
  (Return line, {| stdin := rest; trace := tr ++ accepted line |}).
Proof.
  intros Hst. cbn [ask_eclipsedir]. unfold bind, input, os_path_exists, ret, log.
  cbn [stdin trace]. rewrite Hst. unfold accepted.
  now rewrite <- app_assoc.
Qed.

Lemma ask_eclipsedir_reject fuel line rest tr :
  os_stat h line = None ->
  ask_eclipsedir h (S fuel) {| stdin := line :: rest; trace := tr |} =
  ask_eclipsedir h fuel {| stdin := rest; trace := tr ++ rejected [line] |}.
Proof.
  intros Hst. cbn [ask_eclipsedir]. unfold bind at 1 2 3. unfold input, os_path_exists, print, log.
  cbn [stdin trace]. rewrite Hst. f_equal. f_equal.
  unfold rejected. cbn [flat_map stdin trace]. rewrite app_nil_r.
  now rewrite <- !app_assoc.
Qed.

Lemma rejected_app bad1 bad2 : rejected (bad1 ++ bad2) = rejected bad1 ++ rejected bad2.
Proof. unfold rejected. apply flat_map_app. Qed.

(** The rounds that turn down non-existing paths, one per path. *)
Lemma ask_eclipsedir_skip bad : forall fuel rest tr,
  Forall (fun p => os_stat h p = None) bad ->
  ask_eclipsedir h (length bad + fuel) {| stdin := bad ++ rest; trace := tr |} =
  ask_eclipsedir h fuel {| stdin := rest; trace := tr ++ rejected bad |}.
Proof.
  induction bad as [|b bad IH]; intros fuel rest tr Hbad.
  - cbn. now rewrite app_nil_r.
  - inversion Hbad as [|? ? Hb Hrest]; subst.
    cbn [length Nat.add app].
    rewrite ask_eclipsedir_reject by assumption.
    rewrite IH by assumption.
    change (b :: bad) with ([b] ++ bad).
    now rewrite rejected_app, app_assoc.
Qed.

(** The loop stops before its fuel does: each round reads a line. *)
Lemma ask_eclipsedir_fuel fuel : forall w,
  length (stdin w) < fuel -> fst (ask_eclipsedir h fuel w) <> OutOfFuel.
Proof.
  induction fuel as [|fuel IH]; intros [lines tr] Hlt; [lia|].
  destruct lines as [|line rest].
  - now rewrite ask_eclipsedir_eof.
  - destruct (os_stat h line) as [kind|] eqn:Hst.
    + now erewrite ask_eclipsedir_accept by eassumption.
    + rewrite ask_eclipsedir_reject by assumption.
      apply IH. cbn in *. lia.
Qed.

(** The loop only ever adds to the trace. *)
Lemma ask_eclipsedir_trace_grows fuel : forall w,
  exists tl, trace (snd (ask_eclipsedir h fuel w)) = trace w ++ tl.
Proof.
  induction fuel as [|fuel IH]; intros [lines tr].
  - exists []. cbn. now rewrite app_nil_r.
  - destruct lines as [|line rest].
    + rewrite ask_eclipsedir_eof by reflexivity. now exists [EvPrompt prompt_text].
    + destruct (os_stat h line) as [kind|] eqn:Hst.
      * erewrite ask_eclipsedir_accept by eassumption. now exists (accepted line).
      * rewrite ask_eclipsedir_reject by assumption.
        destruct (IH {| stdin := rest; trace := tr ++ rejected [line] |}) as [tl Htl].
        rewrite Htl. cbn [trace]. exists (rejected [line] ++ tl).
        now rewrite app_assoc.
Qed.

(** The loop hands back only paths that [os.stat] has found, and it has
    asked about them. *)
Lemma ask_eclipsedir_returns_existing fuel : forall w root w1,
  ask_eclipsedir h fuel w = (Return root, w1) ->
  is_Some (os_stat h root).
Proof.
  induction fuel as [|fuel IH]; intros [lines tr] root w1 Hrun; [discriminate|].
  destruct lines as [|line rest].
  - rewrite ask_eclipsedir_eof in Hrun by reflexivity. discriminate.
  - destruct (os_stat h line) as [kind|] eqn:Hst.
    + erewrite ask_eclipsedir_accept in Hrun by eassumption.
      inversion Hrun; subst. rewrite Hst. eauto.
    + rewrite ask_eclipsedir_reject in Hrun by assumption. eauto.
Qed.

Lemma ask_eclipsedir_returns_trace fuel : forall w root w1,
  ask_eclipsedir h fuel w = (Return root, w1) ->
  exists pre, trace w1 = trace w ++ pre ++ accepted root.
Proof.
  induction fuel as [|fuel IH]; intros [lines tr] root w1 Hrun; [discriminate|].
  destruct lines as [|line rest].
  - rewrite ask_eclipsedir_eof in Hrun by reflexivity. discriminate.
  - destruct (os_stat h line) as [kind|] eqn:Hst.
    + erewrite ask_eclipsedir_accept in Hrun by eassumption.
      inversion Hrun; subst. now exists [].
    + rewrite ask_eclipsedir_reject in Hrun by assumption.
      destruct (IH _ _ _ Hrun) as [pre Hpre]. cbn [trace] in *.
      exists (rejected [line] ++ pre). now rewrite Hpre, <- !app_assoc.
Qed.

(** Every run of the loop starts by writing the prompt. *)
Lemma ask_eclipsedir_prompts_first fuel w :
  exists tl, trace (snd (ask_eclipsedir h (S fuel) w)) = trace w ++ EvPrompt prompt_text :: tl.
Proof.
  destruct w as [lines tr]. destruct lines as [|line rest].
  - rewrite ask_eclipsedir_eof by reflexivity. now exists [].
  - destruct (os_stat h line) as [kind|] eqn:Hst.
    + erewrite ask_eclipsedir_accept by eassumption. now exists [EvStat line].
    + rewrite ask_eclipsedir_reject by assumption.
      destruct (ask_eclipsedir_trace_grows fuel
                  {| stdin := rest; trace := tr ++ rejected [line] |}) as [tl Htl].
      rewrite Htl. cbn [trace rejected flat_map app].
      exists ([EvStat line; EvPrint "Invalid Path"] ++ tl).
      now rewrite <- app_assoc.
Qed.

End Loop.

(** ** Pieces of the script *)

Lemma eclipsedir_absent h w :
  environ h !! "ECLIPSEDIR" = None ->
  eclipsedir h w = ask_eclipsedir h (S (length (stdin w))) w.
Proof. intros Henv. unfold eclipsedir. now rewrite Henv. Qed.

Lemma eclipsedir_present h value w :
  environ h !! "ECLIPSEDIR" = Some value -> eclipsedir h w = (Return value, w).
Proof. intros Henv. unfold eclipsedir. now rewrite Henv. Qed.

(** The acquisition of the root always comes to an end. *)
Lemma eclipsedir_total h w : fst (eclipsedir h w) <> OutOfFuel.
Proof.
  unfold eclipsedir. destruct (environ h !! "ECLIPSEDIR") as [value|].
  - discriminate.
  - apply ask_eclipsedir_fuel. lia.
Qed.

Lemma arch_linux h w :
  platform_system h = "Linux" -> arch h w = (Return "i386_linux", w).
Proof. intros Hsys. unfold arch. now rewrite decide_True by assumption. Qed.

Lemma arch_windows h w :
  platform_system h = "Windows" -> arch h w = (Return "i386_nt", w).
Proof.
  intros Hsys. unfold arch.
  rewrite decide_False by (rewrite Hsys; discriminate).
  now rewrite decide_True by assumption.
Qed.

Lemma arch_other h w :
  platform_system h <> "Linux" -> platform_system h <> "Windows" ->
  arch h w = (Raise RuntimeError, log (EvPrint "Platform not supported") w).
Proof.
  intros Hl Hw. unfold arch.
  rewrite !decide_False by assumption. reflexivity.
Qed.

(** When [arch] is bound at all, it is one of the two tags, and nothing
    was read or written on the way. *)
Lemma arch_returns h w a w' :
  arch h w = (Return a, w') ->
  w' = w /\
  ((platform_system h = "Linux" /\ a = "i386_linux") \/
   (platform_system h = "Windows" /\ a = "i386_nt")).
Proof.
  intros Harch.
  destruct (decide (platform_system h = "Linux")) as [Hl|Hl].
  - rewrite arch_linux in Harch by assumption. inversion Harch; subst. auto.
  - destruct (decide (platform_system h = "Windows")) as [Hw|Hw].
    + rewrite arch_windows in Harch by assumption. inversion Harch; subst. auto.
    + rewrite arch_other in Harch by assumption. discriminate.
Qed.

(** A run that reaches [setup] has bound [eclipsedir] and [arch]. *)
Lemma setup_py_returns h w r w' :
  setup_py h w = (Return r, w') ->
  exists root a,
    eclipsedir h w = (Return root, w') /\
    arch h w' = (Return a, w') /\
    r = setup (pyclp_module h root a).
Proof.
  unfold setup_py, bind. intros Hrun.
  destruct (eclipsedir h w) as [[root|e|] w1] eqn:Hroot; try discriminate.
  destruct (arch h w1) as [[a|e|] w2] eqn:Harch; try discriminate.
  destruct (arch_returns _ _ _ _ Harch) as [-> _].
  unfold ret in Hrun. inversion Hrun; subst.
  exists root, a. auto.
Qed.

(** The script never runs out of fuel: it calls [setup] or ends by an
    exception. *)
Lemma setup_py_total h w : fst (setup_py h w) <> OutOfFuel.
Proof.
  pose proof (eclipsedir_total h w) as Htot.
  unfold setup_py. unfold bind at 1.
  destruct (eclipsedir h w) as [[root|e|] w1]; [|discriminate|now cbn in Htot].
  unfold bind, arch.
  repeat case_decide; discriminate.
Qed.

Lemma setup_py_runs h w root w1 a :
  eclipsedir h w = (Return root, w1) ->
  arch h w1 = (Return a, w1) ->
  setup_py h w = (Return (setup (pyclp_module h root a)), w1).
Proof.
  intros Hroot Harch. unfold setup_py, bind. now rewrite Hroot, Harch.
Qed.

Lemma occurrences_app e tr1 tr2 :
  occurrences e (tr1 ++ tr2) = occurrences e tr1 + occurrences e tr2.
Proof. unfold occurrences. now rewrite filter_app, length_app. Qed.

Lemma invalid_path_rejected bad :
  occurrences (EvPrint "Invalid Path") (rejected bad) = length bad.
Proof.
  induction bad as [|b bad IH]; [reflexivity|].
  change (b :: bad) with ([b] ++ bad).
  rewrite rejected_app, occurrences_app, IH.
  unfold occurrences, rejected. cbn [flat_map app].
  rewrite !filter_cons_False by discriminate.
  rewrite filter_cons_True by reflexivity. reflexivity.
Qed.

Lemma invalid_path_accepted good :
  occurrences (EvPrint "Invalid Path") (accepted good) = 0.
Proof.
  unfold occurrences, accepted.
  rewrite !filter_cons_False by discriminate. reflexivity.
Qed.

(** ** The installation root *)

(** C1: when [ECLIPSEDIR] is in the environment with a non-empty value,
    [eclipsedir] is bound to exactly that value; the world is left as it
    was, so the file system was not asked and the operator was neither
    prompted nor read. *)
Theorem eclipsedir_from_environ h value w :
  environ h !! "ECLIPSEDIR" = Some value ->
  value <> "" ->
  eclipsedir h w = (Return value, w).
Proof. intros Henv _. now apply eclipsedir_present. Qed.

Lemma eclipsedir_from_environ_witness :
  eclipsedir (host {[ "ECLIPSEDIR" := "/no/such/dir" ]} "Linux") (start ["unread"]) =
  (Return "/no/such/dir", start ["unread"]).
Proof.
  apply (eclipsedir_from_environ
           (host {[ "ECLIPSEDIR" := "/no/such/dir" ]} "Linux") "/no/such/dir").
  - reflexivity.
  - discriminate.
Defined.

(** C5: without [ECLIPSEDIR], the loop binds [eclipsedir] to the first
    line of standard input that exists on the file system.  Each line
    before it costs one round (prompt, look-up, "Invalid Path"), so
    "Invalid Path" is printed once per non-existing path; the accepted
    line costs a prompt and a look-up. *)
Theorem eclipsedir_first_existing h bad good rest tr :
  environ h !! "ECLIPSEDIR" = None ->
  Forall (fun p => os_stat h p = None) bad ->
  is_Some (os_stat h good) ->
  eclipsedir h {| stdin := bad ++ good :: rest; trace := tr |} =
    (Return good, {| stdin := rest; trace := tr ++ rejected bad ++ accepted good |})
  /\ occurrences (EvPrint "Invalid Path") (rejected bad ++ accepted good) = length bad.
Proof.
  intros Henv Hbad [kind Hgood]. split.
  - rewrite eclipsedir_absent by assumption. cbn [stdin].
    replace (S (length (bad ++ good :: rest)))
      with (length bad + S (S (length rest)))
      by (rewrite length_app; cbn; lia).
    rewrite ask_eclipsedir_skip by assumption.
    erewrite ask_eclipsedir_accept by eassumption.
    now rewrite app_assoc.
  - rewrite occurrences_app, invalid_path_rejected, invalid_path_accepted. lia.
Qed.

Lemma eclipsedir_first_existing_witness :
  eclipsedir (host ∅ "Linux") (start ["/nonexistent"; "/opt/eclipse"]) =
    (Return "/opt/eclipse",
     {| stdin := [];
        trace := [EvPrompt prompt_text; EvStat "/nonexistent"; EvPrint "Invalid Path";
                  EvPrompt prompt_text; EvStat "/opt/eclipse"] |})
  /\ occurrences (EvPrint "Invalid Path")
       [EvPrompt prompt_text; EvStat "/nonexistent"; EvPrint "Invalid Path";
        EvPrompt prompt_text; EvStat "/opt/eclipse"] = 1.
Proof.
  apply (eclipsedir_first_existing (host ∅ "Linux") ["/nonexistent"] "/opt/eclipse" [] []).
  - reflexivity.
  - repeat constructor.
  - exists S_IFDIR. reflexivity.
Defined.

(** C10: the loop accepts whatever line [os.stat] can find, be it a
    directory, a regular file or anything else, absolute or relative.  The
    run then goes on to [arch] and [setup] with that line as the root: the
    only question ever put to the file system is the one about the line
    itself, nothing is asked about its kind or about what lies below it. *)
Theorem eclipsedir_accepts_any_entry h path kind rest tr :
  environ h !! "ECLIPSEDIR" = None ->
  os_stat h path = Some kind ->
  let w := {| stdin := path :: rest; trace := tr |} in
  let w1 := {| stdin := rest; trace := tr ++ [EvPrompt prompt_text; EvStat path] |} in
  eclipsedir h w = (Return path, w1) /\
  (forall a, arch h w1 = (Return a, w1) ->
     setup_py h w = (Return (setup (pyclp_module h path a)), w1)).
Proof.
  intros Henv Hstat w w1.
  assert (Hroot : eclipsedir h w = (Return path, w1)).
  { rewrite eclipsedir_absent by assumption.
    subst w w1. erewrite ask_eclipsedir_accept by eassumption. reflexivity. }
  split; [exact Hroot|].
  intros a Harch. now apply setup_py_runs.
Qed.

Lemma eclipsedir_accepts_any_entry_witness :
  let h := host ∅ "Linux" in
  let w1 := {| stdin := []; trace := [EvPrompt prompt_text; EvStat "setup.py"] |} in
  os_stat h "setup.py" = Some S_IFREG /\
  eclipsedir h (start ["setup.py"]) = (Return "setup.py", w1) /\
  setup_py h (start ["setup.py"]) =
    (Return (setup (pyclp_module h "setup.py" "i386_linux")), w1).
Proof.
  intros h w1.
  destruct (eclipsedir_accepts_any_entry h "setup.py" S_IFREG [] [])
    as [Hroot Hrun]; [reflexivity | reflexivity |].
  split; [reflexivity|]. split; [exact Hroot|].
  apply Hrun. reflexivity.
Defined.

(** ** The architecture tag *)

Lemma ask_eclipsedir_raises h fuel : forall w e w',
  ask_eclipsedir h fuel w = (Raise e, w') -> e = EOFError.
Proof.
  induction fuel as [|fuel IH]; intros [lines tr] e w' Hrun; [discriminate|].
  destruct lines as [|line rest].
  - rewrite ask_eclipsedir_eof in Hrun by reflexivity. congruence.
  - destruct (os_stat h line) as [kind|] eqn:Hst.
    + erewrite ask_eclipsedir_accept in Hrun by eassumption. discriminate.
    + rewrite ask_eclipsedir_reject in Hrun by assumption. eauto.
Qed.

(** The acquisition of the root either binds [eclipsedir] or meets the
    end of standard input. *)
Lemma eclipsedir_outcome h w :
  (exists root w1, eclipsedir h w = (Return root, w1)) \/
  (exists w1, eclipsedir h w = (Raise EOFError, w1)).
Proof.
  pose proof (eclipsedir_total h w) as Htot.
  destruct (eclipsedir h w) as [[root|e|] w1] eqn:Hrun.
  - left. eauto.
  - right. exists w1. f_equal. f_equal.
    unfold eclipsedir in Hrun.
    destruct (environ h !! "ECLIPSEDIR"); [discriminate|].
    eapply ask_eclipsedir_raises; eassumption.
  - now cbn in Htot.
Qed.

(** On an unsupported platform the script stops at line 51 as soon as it
    gets there. *)
Lemma setup_py_unsupported h w :
  platform_system h <> "Linux" -> platform_system h <> "Windows" ->
  (exists root w1,
     eclipsedir h w = (Return root, w1) /\
     setup_py h w = (Raise RuntimeError, log (EvPrint "Platform not supported") w1)) \/
  (exists w1,
     eclipsedir h w = (Raise EOFError, w1) /\ setup_py h w = (Raise EOFError, w1)).
Proof.
  intros Hl Hw.
  destruct (eclipsedir_outcome h w) as [(root & w1 & Hroot)|(w1 & Hroot)].
  - left. exists root, w1. split; [assumption|].
    unfold setup_py. unfold bind at 1. rewrite Hroot.
    unfold bind. now rewrite arch_other by assumption.
  - right. exists w1. split; [assumption|].
    unfold setup_py. unfold bind at 1. now rewrite Hroot.
Qed.

(** C2: [arch] is ["i386_linux"] on Linux and ["i386_nt"] on Windows.  On
    any other platform the script prints its complaint and raises; the
    exception is handled nowhere, so whatever the operator types, the
    script ends by an exception and [setup] is not called. *)
Theorem arch_by_platform h w :
  (platform_system h = "Linux" -> arch h w = (Return "i386_linux", w)) /\
  (platform_system h = "Windows" -> arch h w = (Return "i386_nt", w)) /\
  (platform_system h <> "Linux" -> platform_system h <> "Windows" ->
   arch h w = (Raise RuntimeError, log (EvPrint "Platform not supported") w) /\
   forall w0, exists e w1, setup_py h w0 = (Raise e, w1)).
Proof.
  split; [apply arch_linux|]. split; [apply arch_windows|].
  intros Hl Hw. split; [now apply arch_other|].
  intros w0.
  destruct (setup_py_unsupported h w0 Hl Hw)
    as [(root & w1 & _ & Hrun)|(w1 & _ & Hrun)]; eauto.
Qed.

Lemma arch_by_platform_witness :
  arch (host ∅ "Linux") (start []) = (Return "i386_linux", start []) /\
  arch (host ∅ "Windows") (start []) = (Return "i386_nt", start []) /\
  arch (host ∅ "Darwin") (start []) =
    (Raise RuntimeError, {| stdin := []; trace := [EvPrint "Platform not supported"] |}) /\
  exists e w1, setup_py (host ∅ "Darwin") (start ["/opt/eclipse"]) = (Raise e, w1).
Proof.
  split; [|split; [|split]].
  - apply (proj1 (arch_by_platform (host ∅ "Linux") (start []))). reflexivity.
  - apply (proj1 (proj2 (arch_by_platform (host ∅ "Windows") (start [])))). reflexivity.
  - apply (proj2 (proj2 (arch_by_platform (host ∅ "Darwin") (start [])))); discriminate.
  - apply (proj2 (proj2 (arch_by_platform (host ∅ "Darwin") (start [])))); discriminate.
Defined.

(** C7, as stated, fails.  With an empty environment on Darwin the script
    first prompts for the root: with an existing path on standard input
    the complaint about the platform comes after the prompt, and with
    nothing on standard input the script ends by [EOFError] and never
    looks at the platform. *)
Lemma darwin_prompts_before_failing :
  let h := host ∅ "Darwin" in
  setup_py h (start ["/opt/eclipse"]) =
    (Raise RuntimeError,
     {| stdin := [];
        trace := [EvPrompt prompt_text; EvStat "/opt/eclipse";
                  EvPrint "Platform not supported"] |}) /\
  setup_py h (start []) =
    (Raise EOFError, {| stdin := []; trace := [EvPrompt prompt_text] |}) /\
  ~ (forall lines, exists w',
       setup_py h (start lines) = (Raise RuntimeError, w') /\
       existsb is_prompt (trace w') = false).
Proof.
  intros h. split; [reflexivity|]. split; [reflexivity|].
  intros Hclaim. destruct (Hclaim []) as (w' & Hrun & _). discriminate.
Qed.

(** C7, amended: without [ECLIPSEDIR] and on an unsupported platform, the
    first thing the script does is prompt for the root.  It fails on the
    platform only once the operator has supplied an existing path; if
    standard input ends before that, it ends by [EOFError].  The mapping
    [arch] itself reads nothing but the platform: run from any world, it
    complains and raises. *)
Theorem platform_checked_after_root h w :
  environ h !! "ECLIPSEDIR" = None ->
  platform_system h <> "Linux" ->
  platform_system h <> "Windows" ->
  (exists tl, trace (snd (setup_py h w)) = trace w ++ EvPrompt prompt_text :: tl) /\
  ((exists root w1,
      eclipsedir h w = (Return root, w1) /\
      is_Some (os_stat h root) /\
      setup_py h w = (Raise RuntimeError, log (EvPrint "Platform not supported") w1)) \/
   (exists w1,
      eclipsedir h w = (Raise EOFError, w1) /\ setup_py h w = (Raise EOFError, w1))) /\
  (forall w0, arch h w0 = (Raise RuntimeError, log (EvPrint "Platform not supported") w0)).
Proof.
  intros Henv Hl Hw.
  pose proof (ask_eclipsedir_prompts_first h (length (stdin w)) w) as [tl Htl].
  rewrite <- eclipsedir_absent in Htl by assumption.
  split; [|split].
  - destruct (setup_py_unsupported h w Hl Hw)
      as [(root & w1 & Hroot & Hrun)|(w1 & Hroot & Hrun)];
      rewrite Hrun; rewrite Hroot in Htl; cbn [snd trace log] in *.
    + rewrite Htl. exists (tl ++ [EvPrint "Platform not supported"]).
      now rewrite <- app_assoc.
    + eauto.
  - destruct (setup_py_unsupported h w Hl Hw)
      as [(root & w1 & Hroot & Hrun)|(w1 & Hroot & Hrun)]; [left|right; eauto].
    exists root, w1. split; [assumption|]. split; [|assumption].
    rewrite eclipsedir_absent in Hroot by assumption.
    eapply ask_eclipsedir_returns_existing; eassumption.
  - intros w0. now apply arch_other.
Qed.

Lemma platform_checked_after_root_witness :
  let h := host ∅ "Darwin" in
  let w := start ["/opt/eclipse"] in
  (exists tl, trace (snd (setup_py h w)) = trace w ++ EvPrompt prompt_text :: tl) /\
  ((exists root w1,
      eclipsedir h w = (Return root, w1) /\
      is_Some (os_stat h root) /\
      setup_py h w = (Raise RuntimeError, log (EvPrint "Platform not supported") w1)) \/
   (exists w1,
      eclipsedir h w = (Raise EOFError, w1) /\ setup_py h w = (Raise EOFError, w1))) /\
  (forall w0, arch h w0 = (Raise RuntimeError, log (EvPrint "Platform not supported") w0)).
Proof.
  intros h w.
  apply (platform_checked_after_root h w); [reflexivity | discriminate | discriminate].
Defined.

(** ** Facts about strings and [os.path.join] *)

Lemma append_cons x (a b : string) : String x a +:+ b = String x (a +:+ b).
Proof. reflexivity. Qed.

Lemma append_assoc (a b c : string) : (a +:+ b) +:+ c = a +:+ (b +:+ c).
Proof.
  induction a as [|x a IH]; [reflexivity|].
  rewrite !append_cons. now rewrite IH.
Qed.

Lemma append_empty_r (a : string) : a +:+ "" = a.
Proof.
  induction a as [|x a IH]; [reflexivity|].
  rewrite append_cons. now rewrite IH.
Qed.

Lemma is_empty_append r c s : PyStr.is_empty (r +:+ String c s) = false.
Proof. now destruct r. Qed.

Lemma append_cons_not_empty r c s : r +:+ String c s <> "".
Proof. now destruct r. Qed.

(** A separator at the end of [r +:+ s], for non-empty [s], is one at the
    end of [s]. *)
Lemma endswith_append_sep r c s :
  PyStr.endswith (r +:+ String c s) "/" = PyStr.endswith (String c s) "/".
Proof.
  induction r as [|x r IH]; [reflexivity|].
  change (String x r +:+ String c s) with (String x (r +:+ String c s)).
  cbn [PyStr.endswith]. rewrite IH.
  replace (String.eqb (String x (r +:+ String c s)) "/") with false; [reflexivity|].
  symmetry. apply String.eqb_neq. intros Heq. inversion Heq as [[Hx Hr]].
  now apply append_cons_not_empty in Hr.
Qed.

Lemma startswith_append r x : PyStr.startswith (r +:+ x) r = true.
Proof.
  unfold PyStr.startswith. induction r as [|c r IH]; [now destruct x|].
  rewrite append_cons. cbn [String.prefix].
  destruct (ascii_dec c c) as [_|Hne]; [exact IH|now elim Hne].
Qed.

Lemma endswith_refl a : PyStr.endswith a a = true.
Proof. destruct a; cbn [PyStr.endswith]; now rewrite String.eqb_refl. Qed.

Lemma endswith_append x a : PyStr.endswith (x +:+ a) a = true.
Proof.
  induction x as [|c x IH]; [apply endswith_refl|].
  change (String c x +:+ a) with (String c (x +:+ a)).
  cbn [PyStr.endswith]. rewrite IH. apply orb_true_r.
Qed.

Lemma os_path_join_linux h :
  platform_system h = "Linux" -> os_path_join h = posixpath.join.
Proof.
  intros Hsys. unfold os_path_join.
  now rewrite decide_False by (rewrite Hsys; discriminate).
Qed.

Lemma os_path_join_windows h :
  platform_system h = "Windows" -> os_path_join h = ntpath.join.
Proof. intros Hsys. unfold os_path_join. now rewrite decide_True by assumption. Qed.

(** [posixpath.join] of a root, a directory name and a tag, none of the
    latter two starting with a slash. *)
Lemma posix_join_below root c sub a :
  c <> "/"%char ->
  PyStr.endswith (String c sub) "/" = false ->
  PyStr.startswith a "/" = false ->
  posixpath.join root [String c sub; a] = posix_below root (String c sub) a.
Proof.
  intros Hc Hsub Ha. unfold posixpath.join, posix_below. cbn [fold_left].
  assert (Hstart : PyStr.startswith (String c sub) posixpath.sep = false).
  { unfold PyStr.startswith, posixpath.sep. cbn [String.prefix].
    destruct (ascii_dec "/" c) as [Heq|_]; [now elim Hc|reflexivity]. }
  unfold posixpath.join_step at 2. rewrite Hstart.
  unfold posixpath.join_step, posixpath.sep. rewrite Ha.
  destruct (PyStr.is_empty root || PyStr.endswith root "/").
  - rewrite is_empty_append, endswith_append_sep, Hsub. cbn [orb].
    now rewrite append_assoc.
  - change ("/" +:+ String c sub) with (String "/" (String c sub)).
    rewrite is_empty_append, endswith_append_sep.
    assert (Hsub' : PyStr.endswith (String "/" (String c sub)) "/" = false)
      by exact Hsub.
    rewrite Hsub'. cbn [orb]. now rewrite append_assoc.
Qed.

(** The path that [posixpath.join] builds lies below the root and ends
    with the tag. *)
Lemma posix_below_is_subpath root sub a :
  is_subpath root a (posix_below root sub a) = true.
Proof.
  unfold is_subpath, posix_below.
  destruct (PyStr.is_empty root || PyStr.endswith root "/").
  - rewrite startswith_append. rewrite <- !append_assoc. now rewrite endswith_append.
  - rewrite startswith_append. rewrite <- !append_assoc. now rewrite endswith_append.
Qed.

(** ** [ntpath.join] on a root, a directory name and a tag *)

Lemma slice_to_from n : forall p, PyStr.slice_to n p +:+ PyStr.slice_from n p = p.
Proof.
  unfold PyStr.slice_to.
  induction n as [|n IH]; intros [|c p]; try reflexivity.
  cbn [String.substring PyStr.slice_from]. rewrite append_cons. now rewrite IH.
Qed.

Lemma splitdrive_append p :
  fst (ntpath.splitdrive p) +:+ snd (ntpath.splitdrive p) = p.
Proof.
  unfold ntpath.splitdrive.
  repeat match goal with
         | |- context [if ?b then _ else _] => destruct b
         | |- context [match ?o with Some _ => _ | None => _ end] => destruct o
         end;
    cbn [fst snd]; auto using slice_to_from, append_empty_r.
Qed.

Lemma first1_cons c s : PyStr.first1 (String c s) = String c "".
Proof. unfold PyStr.first1, PyStr.slice. cbn. now destruct s. Qed.

(** Where the normalised path has a backslash, the path has a separator. *)
Lemma separator_at n : forall p,
  String.substring n 1 (PyStr.replace_char "/" "\" p) = "\" ->
  ntpath.in_seps (PyStr.first1 (PyStr.slice_from n p)) = true.
Proof.
  induction n as [|n IH]; intros [|c p] Hsub; try discriminate.
  - cbn in Hsub. cbn [PyStr.slice_from]. rewrite first1_cons.
    destruct (Ascii.eqb_spec c "/") as [->|Hne]; [reflexivity|].
    injection Hsub as -> _. reflexivity.
  - cbn [PyStr.slice_from]. apply IH. exact Hsub.
Qed.

(** What [splitdrive] calls a drive ends with a colon, unless the rest is
    empty or starts with a separator. *)
Lemma splitdrive_shape p :
  let '(d, t) := ntpath.splitdrive p in
  d = "" \/ PyStr.last1 d = ":" \/ t = "" \/
  ntpath.in_seps (PyStr.first1 t) = true.
Proof.
  unfold ntpath.splitdrive.
  destruct (2 <=? String.length p)%nat eqn:Hlen; [|now left].
  set (normp := PyStr.replace_char "/" "\" p).
  destruct (String.eqb (PyStr.slice 0 2 normp) (ntpath.sep +:+ ntpath.sep)).
  - destruct (PyStr.find ntpath.sep _ normp) as [index|]; [|now right; right; left].
    destruct (PyStr.find ntpath.sep (index + 1) normp) as [index2|] eqn:Hfind;
      [|now right; right; left].
    right; right; right. apply separator_at.
    apply (String.index_correct1 _ _ _ _ Hfind).
  - destruct (String.eqb (PyStr.slice 1 2 normp) ntpath.colon) eqn:Hcolon; [|now left].
    right; left.
    destruct p as [|c1 [|c2 p]]; try discriminate.
    apply String.eqb_eq in Hcolon. subst normp. cbn in Hcolon.
    cbn. destruct (Ascii.eqb_spec c2 "/") as [->|Hne]; [discriminate|].
    destruct p; exact Hcolon.
Qed.

Lemma last1_append r c x : PyStr.last1 (r +:+ String c x) = PyStr.last1 (String c x).
Proof.
  induction r as [|y r IH]; [reflexivity|].
  rewrite append_cons. cbn [PyStr.last1].
  destruct (r +:+ String c x) eqn:Hrx; [now apply append_cons_not_empty in Hrx|].
  exact IH.
Qed.

Lemma first1_append c t x : PyStr.first1 (String c t +:+ x) = PyStr.first1 (String c t).
Proof. now rewrite append_cons, !first1_cons. Qed.

Lemma nt_join_step_plain d t x :
  plain_name x ->
  ntpath.join_step (d, t) x =
  (d, (if negb (PyStr.is_empty t) && negb (ntpath.in_seps (PyStr.last1 t))
       then t +:+ ntpath.sep else t) +:+ x).
Proof.
  intros (Hsplit & Hne & Hfirst & _). unfold ntpath.join_step.
  rewrite Hsplit, Hne, Hfirst. reflexivity.
Qed.

(** The path that [ntpath.join] builds is the root, a backslash where the
    root wants one, the directory name, a backslash and the tag. *)
Lemma nt_join_pad root :
  exists pad, (pad = "" \/ pad = "\") /\
    forall sub a, plain_name sub -> plain_name a ->
      ntpath.join root [sub; a] = root +:+ pad +:+ sub +:+ "\" +:+ a.
Proof.
  pose proof (splitdrive_append root) as Hroot.
  pose proof (splitdrive_shape root) as Hshape.
  unfold ntpath.join.
  destruct (ntpath.splitdrive root) as [d t]. cbn [fst snd] in Hroot.
  destruct t as [|ct t].
  - rewrite append_empty_r in Hroot. subst d.
    exists (if negb (PyStr.is_empty root) && negb (String.eqb (PyStr.last1 root) ":")
            then "\" else "").
    split; [destruct (negb _ && negb _); auto|].
    intros sub a Hsub Ha. cbn [fold_left].
    rewrite (nt_join_step_plain _ _ sub Hsub). cbn [PyStr.is_empty negb andb].
    change ("" +:+ sub) with sub.
    rewrite (nt_join_step_plain _ _ a Ha).
    destruct Hsub as (_ & Hne & Hfirst & Hlast).
    destruct sub as [|c sub]; [discriminate|].
    rewrite Hlast. cbn [PyStr.is_empty negb andb].
    rewrite !append_assoc, first1_append, Hfirst, append_cons.
    cbn [PyStr.is_empty negb andb]. unfold ntpath.colon, ntpath.sep.
    destruct (negb (PyStr.is_empty root) && negb (String.eqb (PyStr.last1 root) ":"));
      reflexivity.
  - exists (if negb (ntpath.in_seps (PyStr.last1 (String ct t))) then "\" else "").
    split; [destruct (negb _); auto|].
    intros sub a Hsub Ha. cbn [fold_left].
    rewrite (nt_join_step_plain _ _ sub Hsub).
    change (PyStr.is_empty (String ct t)) with false. cbn [negb andb].
    set (t' := if negb (ntpath.in_seps (PyStr.last1 (String ct t)))
               then String ct t +:+ ntpath.sep else String ct t).
    rewrite (nt_join_step_plain _ _ a Ha).
    destruct Hsub as (_ & Hne & _ & Hlast).
    destruct sub as [|c sub]; [discriminate|].
    rewrite is_empty_append, last1_append, Hlast. cbn [negb andb].
    assert (Ht' : exists rest, t' = String ct rest /\
              t' = String ct t +:+
                   (if negb (ntpath.in_seps (PyStr.last1 (String ct t))) then "\" else "")).
    { subst t'. destruct (negb (ntpath.in_seps (PyStr.last1 (String ct t)))).
      - exists (t +:+ ntpath.sep). split; reflexivity.
      - exists t. split; [reflexivity|]. now rewrite append_empty_r. }
    destruct Ht' as (rest & Hhead & Ht').
    match goal with
    | |- context [if ?b then _ else _] => destruct b eqn:Hcond
    end.
    + exfalso.
      rewrite !andb_true_iff, !negb_true_iff in Hcond.
      destruct Hcond as [[[_ Hfirst] Hd] Hcolon].
      rewrite Hhead, !append_assoc, first1_append in Hfirst.
      rewrite first1_cons in Hfirst.
      destruct Hshape as [->|[Hlast'|[Habs|Hsep]]].
      * discriminate.
      * rewrite Hlast' in Hcolon. discriminate.
      * discriminate.
      * rewrite first1_cons in Hsep. rewrite Hsep in Hfirst. discriminate.
    + rewrite Ht', !append_assoc, <- (append_assoc d (String ct t)), Hroot.
      reflexivity.
Qed.

Lemma nt_join_shape root sub a :
  plain_name sub -> plain_name a ->
  exists pad, (pad = "" \/ pad = "\") /\
    ntpath.join root [sub; a] = root +:+ pad +:+ sub +:+ "\" +:+ a.
Proof.
  intros Hsub Ha. destruct (nt_join_pad root) as (pad & Hpad & Hjoin).
  exists pad. auto.
Qed.

(** So it starts with the root and ends with the tag. *)
Lemma nt_join_is_subpath root sub a :
  plain_name sub -> plain_name a ->
  is_subpath root a (ntpath.join root [sub; a]) = true.
Proof.
  intros Hsub Ha.
  destruct (nt_join_shape root sub a Hsub Ha) as (pad & _ & ->).
  unfold is_subpath. rewrite startswith_append. cbn [andb].
  rewrite <- !append_assoc. apply endswith_append.
Qed.

Lemma plain_include : plain_name "include".
Proof. now repeat split. Qed.

Lemma plain_lib : plain_name "lib".
Proof. now repeat split. Qed.

Lemma plain_i386_nt : plain_name "i386_nt".
Proof. now repeat split. Qed.

(** On either platform, the joined paths start with the root and end
    with the tag. *)
Lemma joined_paths_are_subpaths h w a root :
  arch h w = (Return a, w) ->
  is_subpath root a (eclise_include_path h root a) = true /\
  is_subpath root a (eclipse_lib_path h root a) = true.
Proof.
  intros Harch. unfold eclise_include_path, eclipse_lib_path.
  destruct (arch_returns _ _ _ _ Harch) as [_ [[Hsys ->]|[Hsys ->]]].
  - rewrite os_path_join_linux by assumption.
    rewrite (posix_join_below root "i" "nclude") by (reflexivity || discriminate).
    rewrite (posix_join_below root "l" "ib") by (reflexivity || discriminate).
    split; apply posix_below_is_subpath.
  - rewrite os_path_join_windows by assumption.
    split; apply nt_join_is_subpath;
      auto using plain_include, plain_lib, plain_i386_nt.
Qed.

(** ** The description handed to [setup] *)

(** C3, as stated, fails: [os.path.join] adds a separator only where one
    is missing.  A root typed with a slash at its end (it exists, and the
    loop accepts it) is joined without a second slash, so the include and
    library directories are not [root + "/include/" + arch] and
    [root + "/lib/" + arch]. *)
Lemma trailing_slash_not_doubled :
  let h := host ∅ "Linux" in
  let w1 := {| stdin := []; trace := accepted "/opt/eclipse/" |} in
  let m := pyclp_module h "/opt/eclipse/" "i386_linux" in
  eclipsedir h (start ["/opt/eclipse/"]) = (Return "/opt/eclipse/", w1) /\
  arch h w1 = (Return "i386_linux", w1) /\
  setup_py h (start ["/opt/eclipse/"]) = (Return (setup m), w1) /\
  Extension.include_dirs m !! 0%nat = Some "/opt/eclipse/include/i386_linux" /\
  Extension.library_dirs m !! 0%nat = Some "/opt/eclipse/lib/i386_linux" /\
  Extension.include_dirs m !! 0%nat <> Some ("/opt/eclipse/" +:+ "/include/" +:+ "i386_linux") /\
  Extension.library_dirs m !! 0%nat <> Some ("/opt/eclipse/" +:+ "/lib/" +:+ "i386_linux").
Proof.
  intros h w1 m. repeat split; try reflexivity; discriminate.
Qed.

(** C3, amended: the first include directory and the first library
    directory are [os.path.join(root, "include", arch)] and
    [os.path.join(root, "lib", arch)].  On Linux these are
    [root + "/include/" + arch] and [root + "/lib/" + arch] when the root
    is not empty and does not end with a slash, and [root + "include/" +
    arch] and [root + "lib/" + arch] when it is empty or ends with one. *)
Theorem pyclp_module_paths h w root w1 a :
  eclipsedir h w = (Return root, w1) ->
  arch h w1 = (Return a, w1) ->
  exists m,
    setup_py h w = (Return (setup m), w1) /\
    Extension.include_dirs m !! 0%nat = Some (os_path_join h root ["include"; a]) /\
    Extension.library_dirs m !! 0%nat = Some (os_path_join h root ["lib"; a]) /\
    (platform_system h = "Linux" ->
     os_path_join h root ["include"; a] =
       (if PyStr.is_empty root || PyStr.endswith root "/"
        then root +:+ "include/" +:+ a else root +:+ "/include/" +:+ a) /\
     os_path_join h root ["lib"; a] =
       (if PyStr.is_empty root || PyStr.endswith root "/"
        then root +:+ "lib/" +:+ a else root +:+ "/lib/" +:+ a)) /\
    (platform_system h = "Windows" ->
     exists pad, (pad = "" \/ pad = "\") /\
       os_path_join h root ["include"; a] = root +:+ pad +:+ "include\" +:+ a /\
       os_path_join h root ["lib"; a] = root +:+ pad +:+ "lib\" +:+ a).
Proof.
  intros Hroot Harch. exists (pyclp_module h root a).
  split; [now apply setup_py_runs|]. split; [reflexivity|]. split; [reflexivity|].
  split; intros Hsys.
  - rewrite os_path_join_linux by assumption.
    destruct (arch_returns _ _ _ _ Harch) as [_ [[_ ->]|[Hwin _]]];
      [|rewrite Hsys in Hwin; discriminate].
    split.
    + rewrite (posix_join_below root "i" "nclude") by (reflexivity || discriminate).
      unfold posix_below. now destruct (PyStr.is_empty root || PyStr.endswith root "/").
    + rewrite (posix_join_below root "l" "ib") by (reflexivity || discriminate).
      unfold posix_below. now destruct (PyStr.is_empty root || PyStr.endswith root "/").
  - rewrite os_path_join_windows by assumption.
    destruct (arch_returns _ _ _ _ Harch) as [_ [[Hlin _]|[_ ->]]];
      [rewrite Hsys in Hlin; discriminate|].
    destruct (nt_join_pad root) as (pad & Hpad & Hjoin).
    exists pad. split; [assumption|].
    split; apply Hjoin; auto using plain_include, plain_lib, plain_i386_nt.
Qed.

Lemma pyclp_module_paths_witness :
  let h := host {[ "ECLIPSEDIR" := "/opt/eclipse" ]} "Linux" in
  exists m,
    setup_py h (start []) = (Return (setup m), start []) /\
    Extension.include_dirs m !! 0%nat = Some "/opt/eclipse/include/i386_linux" /\
    Extension.library_dirs m !! 0%nat = Some "/opt/eclipse/lib/i386_linux" /\
    (platform_system h = "Linux" ->
     "/opt/eclipse/include/i386_linux" = "/opt/eclipse" +:+ "/include/" +:+ "i386_linux" /\
     "/opt/eclipse/lib/i386_linux" = "/opt/eclipse" +:+ "/lib/" +:+ "i386_linux") /\
    (platform_system h = "Windows" ->
     exists pad, (pad = "" \/ pad = "\") /\
       "/opt/eclipse/include/i386_linux" = "/opt/eclipse" +:+ pad +:+ "include\" +:+ "i386_linux" /\
       "/opt/eclipse/lib/i386_linux" = "/opt/eclipse" +:+ pad +:+ "lib\" +:+ "i386_linux").
Proof.
  intros h.
  apply (pyclp_module_paths h (start []) "/opt/eclipse" (start []) "i386_linux");
    reflexivity.
Defined.

(** C4: whenever the script gets to call [setup], it passes one extension
    module named ["pyclp.pyclp"], built from the one source
    ["src/pyclp/pyclp.pyx"], with two include directories of which the
    second is ["src/pyclp/"], linked against ["eclipse"]; the package root
    is ["src"] and the packages are [["pyclp"]]. *)
Theorem setup_fixed_fields h w r w' :
  setup_py h w = (Return r, w') ->
  exists m,
    Setup.ext_modules r = [m] /\
    Extension.name m = "pyclp.pyclp" /\
    Extension.sources m = ["src/pyclp/pyclp.pyx"] /\
    length (Extension.include_dirs m) = 2 /\
    Extension.include_dirs m !! 1%nat = Some "src/pyclp/" /\
    Extension.libraries m = ["eclipse"] /\
    Setup.package_dir r = {[ "" := "src" ]} /\
    Setup.packages r = ["pyclp"].
Proof.
  intros Hrun. destruct (setup_py_returns _ _ _ _ Hrun) as (root & a & _ & _ & ->).
  exists (pyclp_module h root a). repeat split.
Qed.

Lemma setup_fixed_fields_witness :
  let h := host {[ "ECLIPSEDIR" := "/opt/eclipse" ]} "Linux" in
  let r := setup (pyclp_module h "/opt/eclipse" "i386_linux") in
  exists m,
    Setup.ext_modules r = [m] /\
    Extension.name m = "pyclp.pyclp" /\
    Extension.sources m = ["src/pyclp/pyclp.pyx"] /\
    length (Extension.include_dirs m) = 2 /\
    Extension.include_dirs m !! 1%nat = Some "src/pyclp/" /\
    Extension.libraries m = ["eclipse"] /\
    Setup.package_dir r = {[ "" := "src" ]} /\
    Setup.packages r = ["pyclp"].
Proof.
  intros h r.
  apply (setup_fixed_fields h (start []) r (start [])). reflexivity.
Defined.






(** Without [eclipsedir] among the globals, line 53 ends by [NameError]. *)
Example bind_pyclp_module_unbound :
  bind_pyclp_module (host ∅ "Linux") {[ "arch" := VStr "i386_linux" ]} =
  inl (NameError "eclipsedir").
Proof. reflexivity. Qed.

(** C9, as stated, fails on Windows, where [os.path.join] puts a
    backslash, not a slash, between ["include"] (or ["lib"]) and the
    tag. *)
Lemma empty_root_on_windows :
  let h := host {[ "ECLIPSEDIR" := "" ]} "Windows" in
  let m := pyclp_module h "" "i386_nt" in
  setup_py h (start []) = (Return (setup m), start []) /\
  Extension.include_dirs m !! 0%nat = Some "include\i386_nt" /\
  Extension.library_dirs m !! 0%nat = Some "lib\i386_nt" /\
  Extension.include_dirs m !! 0%nat <> Some ("include/" +:+ "i386_nt") /\
  Extension.library_dirs m !! 0%nat <> Some ("lib/" +:+ "i386_nt").
Proof.
  intros h m. repeat split; try reflexivity; discriminate.
Qed.

(** C9, amended: when [ECLIPSEDIR] is in the environment with the empty
    string as its value, the empty string becomes the root; the operator is
    not prompted and the file system is not asked.  The include and library
    directories are then relative: ["include/i386_linux"] and
    ["lib/i386_linux"] on Linux, ["include\i386_nt"] and ["lib\i386_nt"] on
    Windows.  It is the presence of the key that decides: any value is
    taken as it is, and without the key the script starts by prompting. *)
Theorem empty_eclipsedir_is_used h w :
  environ h !! "ECLIPSEDIR" = Some "" ->
  eclipsedir h w = (Return "", w) /\
  (platform_system h = "Linux" ->
   exists m,
     setup_py h w = (Return (setup m), w) /\
     Extension.include_dirs m = ["include/i386_linux"; "src/pyclp/"] /\
     Extension.library_dirs m = ["lib/i386_linux"]) /\
  (platform_system h = "Windows" ->
   exists m,
     setup_py h w = (Return (setup m), w) /\
     Extension.include_dirs m = ["include\i386_nt"; "src/pyclp/"] /\
     Extension.library_dirs m = ["lib\i386_nt"]) /\
  (forall h' value,
     environ h' !! "ECLIPSEDIR" = Some value -> eclipsedir h' w = (Return value, w)) /\
  (forall h',
     environ h' !! "ECLIPSEDIR" = None ->
     exists tl, trace (snd (eclipsedir h' w)) = trace w ++ EvPrompt prompt_text :: tl).
Proof.
  intros Henv.
  assert (Hroot : eclipsedir h w = (Return "", w)) by now apply eclipsedir_present.
  split; [exact Hroot|]. split; [|split; [|split]].
  - intros Hsys. exists (pyclp_module h "" "i386_linux").
    split; [apply setup_py_runs; [exact Hroot|now apply arch_linux]|].
    unfold pyclp_module, eclise_include_path, eclipse_lib_path.
    rewrite os_path_join_linux by assumption. split; reflexivity.
  - intros Hsys. exists (pyclp_module h "" "i386_nt").
    split; [apply setup_py_runs; [exact Hroot|now apply arch_windows]|].
    unfold pyclp_module, eclise_include_path, eclipse_lib_path.
    rewrite os_path_join_windows by assumption. split; reflexivity.
  - intros h' value Henv'. now apply eclipsedir_present.
  - intros h' Henv'. rewrite eclipsedir_absent by assumption.
    apply ask_eclipsedir_prompts_first.
Qed.

Lemma empty_eclipsedir_is_used_witness :
  let h := host {[ "ECLIPSEDIR" := "" ]} "Linux" in
  let w := start ["unread"] in
  eclipsedir h w = (Return "", w) /\
  exists m,
    setup_py h w = (Return (setup m), w) /\
    Extension.include_dirs m = ["include/i386_linux"; "src/pyclp/"] /\
    Extension.library_dirs m = ["lib/i386_linux"].
Proof.
  intros h w.
  destruct (empty_eclipsedir_is_used h w) as (Hroot & Hlinux & _); [reflexivity|].
  split; [exact Hroot|]. apply Hlinux. reflexivity.
Defined.

(** C6, as stated, fails twice over.  The second include directory,
    ["src/pyclp/"], is a fixed path that has nothing of the root or of the
    tag; and a root that comes from [ECLIPSEDIR] goes into the description
    without anybody having looked for it on the file system. *)
Lemma descriptor_beyond_validated_root :
  let h := host {[ "ECLIPSEDIR" := "/no/such/dir" ]} "Linux" in
  let m := pyclp_module h "/no/such/dir" "i386_linux" in
  eclipsedir h (start []) = (Return "/no/such/dir", start []) /\
  arch h (start []) = (Return "i386_linux", start []) /\
  setup_py h (start []) = (Return (setup m), start []) /\
  Extension.include_dirs m !! 1%nat = Some "src/pyclp/" /\
  is_subpath "/no/such/dir" "i386_linux" "src/pyclp/" = false /\
  ~ (forall p, p ∈ Extension.include_dirs m ++ Extension.library_dirs m ->
       is_subpath "/no/such/dir" "i386_linux" p = true) /\
  os_stat h "/no/such/dir" = None /\
  ~ validated h (trace (start [])) "/no/such/dir".
Proof.
  intros h m. repeat split; try reflexivity.
  - intros Hall. specialize (Hall "src/pyclp/").
    assert (Hin : "src/pyclp/" ∈ Extension.include_dirs m ++ Extension.library_dirs m).
    { apply elem_of_app. left. apply list_elem_of_lookup. now exists 1%nat. }
    apply Hall in Hin. discriminate.
  - intros [Hin _]. cbn in Hin. now apply not_elem_of_nil in Hin.
Qed.

(** C6, amended: in every description the script hands to [setup], the
    first include directory and the only library directory are
    [os.path.join(root, "include", arch)] and [os.path.join(root, "lib",
    arch)]; they start with the root and end with the tag.  The second
    include directory is the fixed relative path ["src/pyclp/"], whatever
    the root and the tag; it does not end with the tag, so it is not a path
    of the root joined with the tag.  A root that the operator typed has
    been found on the file system by [os.path.exists]; a root from
    [ECLIPSEDIR] is taken as it is, and nothing has been read, written or
    looked up for it. *)
Theorem descriptor_directories h w r w' :
  setup_py h w = (Return r, w') ->
  exists root a m,
    eclipsedir h w = (Return root, w') /\
    arch h w' = (Return a, w') /\
    Setup.ext_modules r = [m] /\
    Extension.include_dirs m = [os_path_join h root ["include"; a]; "src/pyclp/"] /\
    Extension.library_dirs m = [os_path_join h root ["lib"; a]] /\
    is_subpath root a (os_path_join h root ["include"; a]) = true /\
    is_subpath root a (os_path_join h root ["lib"; a]) = true /\
    Extension.include_dirs m !! 1%nat = Some "src/pyclp/" /\
    PyStr.endswith "src/pyclp/" a = false /\
    is_subpath root a "src/pyclp/" = false /\
    (environ h !! "ECLIPSEDIR" = None -> validated h (trace w') root) /\
    (forall value, environ h !! "ECLIPSEDIR" = Some value -> root = value /\ w' = w).
Proof.
  intros Hrun.
  destruct (setup_py_returns _ _ _ _ Hrun) as (root & a & Hroot & Harch & ->).
  exists root, a, (pyclp_module h root a).
  destruct (joined_paths_are_subpaths h w' a root Harch) as [Hinc Hlib].
  assert (Htag : PyStr.endswith "src/pyclp/" a = false).
  { destruct (arch_returns _ _ _ _ Harch) as [_ [[_ ->]|[_ ->]]]; reflexivity. }
  repeat match goal with |- _ /\ _ => split end; try reflexivity; try assumption.
  - unfold is_subpath. now apply andb_false_intro2.
  - intros Henv. rewrite eclipsedir_absent in Hroot by assumption. split.
    + destruct (ask_eclipsedir_returns_trace _ _ _ _ _ Hroot) as [pre ->].
      unfold accepted. rewrite !elem_of_app. right; right.
      apply list_elem_of_further, list_elem_of_here.
    + eapply ask_eclipsedir_returns_existing; eassumption.
  - intros value Henv. rewrite (eclipsedir_present _ _ _ Henv) in Hroot.
    inversion Hroot; subst. auto.
Qed.

Lemma descriptor_directories_witness :
  let h := host ∅ "Linux" in
  let w' := {| stdin := []; trace := [EvPrompt prompt_text; EvStat "/opt/eclipse"] |} in
  exists root a m,
    eclipsedir h (start ["/opt/eclipse"]) = (Return root, w') /\
    arch h w' = (Return a, w') /\
    Setup.ext_modules (setup (pyclp_module h "/opt/eclipse" "i386_linux")) = [m] /\
    Extension.include_dirs m = [os_path_join h root ["include"; a]; "src/pyclp/"] /\
    Extension.library_dirs m = [os_path_join h root ["lib"; a]] /\
    is_subpath root a (os_path_join h root ["include"; a]) = true /\
    is_subpath root a (os_path_join h root ["lib"; a]) = true /\
    Extension.include_dirs m !! 1%nat = Some "src/pyclp/" /\
    PyStr.endswith "src/pyclp/" a = false /\
    is_subpath root a "src/pyclp/" = false /\
    (environ h !! "ECLIPSEDIR" = None -> validated h (trace w') root) /\
    (forall value,
       environ h !! "ECLIPSEDIR" = Some value -> root = value /\ w' = start ["/opt/eclipse"]).
Proof.
  intros h w'.
  apply (descriptor_directories h (start ["/opt/eclipse"])
           (setup (pyclp_module h "/opt/eclipse" "i386_linux")) w').
  reflexivity.
Defined.

(** * Further properties of the script *)

(** ** When standard input runs out *)

(** X1: without [ECLIPSEDIR], and with no line of standard input that
    exists on the file system (no line at all, for one), the script reads
    every line, turns each one down with "Invalid Path", prompts once more
    and ends by [EOFError].  The platform is not looked at: on an
    unsupported platform too, this is how the script ends, and without the
    complaint about the platform. *)
Theorem setup_py_input_exhausted h lines tr :
  environ h !! "ECLIPSEDIR" = None ->
  Forall (fun p => os_stat h p = None) lines ->
  setup_py h {| stdin := lines; trace := tr |} =
  (Raise EOFError,
   {| stdin := []; trace := tr ++ rejected lines ++ [EvPrompt prompt_text] |}).
Proof.
  intros Henv Hmissing.
  unfold setup_py. unfold bind at 1.
  rewrite eclipsedir_absent by assumption. cbn [stdin].
  replace (S (length lines)) with (length lines + 1) by lia.
  rewrite <- (app_nil_r lines) at 2.
  rewrite ask_eclipsedir_skip by assumption.
  rewrite ask_eclipsedir_eof by reflexivity.
  unfold log. cbn [stdin trace]. now rewrite app_assoc.
Qed.

Lemma setup_py_input_exhausted_witness :
  setup_py (host ∅ "Darwin") (start ["/nonexistent"; "/tmp/x"]) =
  (Raise EOFError,
   {| stdin := [];
      trace := [EvPrompt prompt_text; EvStat "/nonexistent"; EvPrint "Invalid Path";
                EvPrompt prompt_text; EvStat "/tmp/x"; EvPrint "Invalid Path";
                EvPrompt prompt_text] |}).
Proof.
  apply (setup_py_input_exhausted (host ∅ "Darwin") ["/nonexistent"; "/tmp/x"] []).
  - reflexivity.
  - repeat constructor.
Defined.

(** ** How the script ends *)

Lemma missing_or_existing h lines :
  Forall (fun p => os_stat h p = None) lines \/
  Exists (fun p => is_Some (os_stat h p)) lines.
Proof.
  induction lines as [|line lines [IH|IH]].
  - left. constructor.
  - destruct (os_stat h line) as [kind|] eqn:Hst.
    + right. apply Exists_cons_hd. rewrite Hst. eauto.
    + left. now constructor.
  - right. now apply Exists_cons_tl.
Qed.

Lemma missing_not_existing h lines :
  Forall (fun p => os_stat h p = None) lines ->
  ~ Exists (fun p => is_Some (os_stat h p)) lines.
Proof.
  intros Hall Hex. apply Exists_exists in Hex as (p & Hin & [kind Hst]).
  rewrite Forall_forall in Hall. rewrite (Hall p Hin) in Hst. discriminate.
Qed.

(** The lines up to the first one that exists. *)
Lemma first_existing h lines :
  Exists (fun p => is_Some (os_stat h p)) lines ->
  exists bad good rest,
    lines = bad ++ good :: rest /\
    Forall (fun p => os_stat h p = None) bad /\
    is_Some (os_stat h good).
Proof.
  induction lines as [|line lines IH]; intros Hex; [inversion Hex|].
  destruct (os_stat h line) as [kind|] eqn:Hst.
  - exists [], line, lines. rewrite Hst. repeat split; eauto.
  - inversion Hex as [? ? [kind Hkind]|? ? Htl]; subst; [congruence|].
    destruct (IH Htl) as (bad & good & rest & -> & Hbad & Hgood).
    exists (line :: bad), good, rest. repeat split; auto.
Qed.

(** The root is there for the taking when [ECLIPSEDIR] is set or some
    line of standard input exists on the file system. *)
Lemma eclipsedir_returns_iff h w :
  (exists root w1, eclipsedir h w = (Return root, w1)) <->
  (is_Some (environ h !! "ECLIPSEDIR") \/
   Exists (fun p => is_Some (os_stat h p)) (stdin w)).
Proof.
  split.
  - intros (root & w1 & Hrun).
    destruct (environ h !! "ECLIPSEDIR") as [value|] eqn:Henv; [left; eauto|].
    right. destruct (missing_or_existing h (stdin w)) as [Hall|Hex]; [|exact Hex].
    exfalso. destruct w as [lines tr]. cbn [stdin] in Hall.
    rewrite eclipsedir_absent in Hrun by assumption. cbn [stdin] in Hrun.
    replace (S (length lines)) with (length lines + 1) in Hrun by lia.
    rewrite <- (app_nil_r lines) in Hrun at 2.
    rewrite ask_eclipsedir_skip in Hrun by assumption.
    rewrite ask_eclipsedir_eof in Hrun by reflexivity. discriminate.
  - intros [[value Henv]|Hex].
    + exists value, w. now apply eclipsedir_present.
    + destruct (environ h !! "ECLIPSEDIR") as [value|] eqn:Henv.
      * exists value, w. now apply eclipsedir_present.
      * destruct w as [lines tr]. cbn [stdin] in Hex.
        destruct (first_existing h lines Hex)
          as (bad & good & rest & -> & Hbad & [kind Hgood]).
        rewrite eclipsedir_absent by assumption. cbn [stdin].
        replace (S (length (bad ++ good :: rest)))
          with (length bad + S (S (length rest)))
          by (rewrite length_app; cbn; lia).
        rewrite ask_eclipsedir_skip by assumption.
        erewrite ask_eclipsedir_accept by eassumption. eauto.
Qed.

(** X2: how the script ends is settled by two questions: is there a root
    to be had ([ECLIPSEDIR] is set, or some line of standard input exists
    on the file system), and is the platform Linux or Windows.  With both,
    [setup] is called; with a root but another platform, the script ends by
    the bare [raise]; without a root it ends by [EOFError], whatever the
    platform. *)
Theorem setup_py_outcome h w :
  let root_available :=
    is_Some (environ h !! "ECLIPSEDIR") \/
    Exists (fun p => is_Some (os_stat h p)) (stdin w) in
  let supported := platform_system h = "Linux" \/ platform_system h = "Windows" in
  ((exists r w', setup_py h w = (Return r, w')) <-> root_available /\ supported) /\
  ((exists w', setup_py h w = (Raise RuntimeError, w')) <->
     root_available /\ ~ supported) /\
  ((exists w', setup_py h w = (Raise EOFError, w')) <-> ~ root_available).
Proof.
  intros root_available supported.
  pose proof (eclipsedir_returns_iff h w) as Hroot. fold root_available in Hroot.
  assert (Hsup : supported \/ (platform_system h <> "Linux" /\ platform_system h <> "Windows")).
  { unfold supported.
    destruct (decide (platform_system h = "Linux")); [now left; left|].
    destruct (decide (platform_system h = "Windows")); [now left; right|].
    now right. }
  destruct (eclipsedir_outcome h w) as [(root & w1 & Hacq)|(w1 & Hacq)].
  - (* the root is acquired *)
    assert (Havail : root_available) by (apply Hroot; eauto).
    destruct Hsup as [Hs|[Hl Hw]].
    + assert (Hrun : exists a, setup_py h w = (Return (setup (pyclp_module h root a)), w1)).
      { destruct Hs as [Hs|Hs].
        - exists "i386_linux". apply setup_py_runs; [assumption|now apply arch_linux].
        - exists "i386_nt". apply setup_py_runs; [assumption|now apply arch_windows]. }
      destruct Hrun as [a Hrun]. rewrite Hrun.
      split; [split; [auto|eauto]|].
      split; (split; [no_such_run|]).
      * intros [_ Hn]. contradiction.
      * intros Hn. contradiction.
    + destruct (setup_py_unsupported h w Hl Hw)
        as [(root' & w1' & _ & Hrun)|(w1' & Hacq' & _)]; [|congruence].
      rewrite Hrun.
      assert (Hns : ~ supported) by (intros [?|?]; contradiction).
      split; [split; [no_such_run|intros [_ Hs]; contradiction]|].
      split; [split; [auto|eauto]|].
      split; [no_such_run|intros Hn; contradiction].
  - (* standard input runs out *)
    assert (Hnavail : ~ root_available).
    { intros Havail. apply Hroot in Havail as (root & w1' & Hacq'). congruence. }
    assert (Hrun : setup_py h w = (Raise EOFError, w1)).
    { unfold setup_py. unfold bind at 1. now rewrite Hacq. }
    rewrite Hrun.
    split; [split; [no_such_run|intros [Ha _]; contradiction]|].
    split; [split; [no_such_run|intros [Ha _]; contradiction]|].
    split; [auto|eauto].
Qed.

Lemma setup_py_outcome_witness :
  let h := host ∅ "Darwin" in
  let w := start ["/nonexistent"; "/opt/eclipse"] in
  exists w', setup_py h w = (Raise RuntimeError, w').
Proof.
  intros h w.
  apply (proj2 (proj1 (proj2 (setup_py_outcome h w)))). split.
  - right. apply Exists_cons_tl, Exists_cons_hd. exists S_IFDIR. reflexivity.
  - intros [Hl|Hw]; discriminate.
Defined.

(** ** What the script asks the file system *)

Lemma stat_paths_app tr1 tr2 : stat_paths (tr1 ++ tr2) = stat_paths tr1 ++ stat_paths tr2.
Proof.
  induction tr1 as [|e tr1 IH]; [reflexivity|].
  destruct e; cbn [app stat_paths]; now rewrite IH.
Qed.

(** Each round of the loop looks up the line it has just read, and
    nothing else. *)
Lemma ask_eclipsedir_looks_up_lines h fuel : forall w,
  exists consumed tl,
    stdin w = consumed ++ stdin (snd (ask_eclipsedir h fuel w)) /\
    trace (snd (ask_eclipsedir h fuel w)) = trace w ++ tl /\
    stat_paths tl = consumed.
Proof.
  induction fuel as [|fuel IH]; intros [lines tr].
  - exists [], []. cbn. now rewrite app_nil_r.
  - destruct lines as [|line rest].
    + rewrite ask_eclipsedir_eof by reflexivity.
      exists [], [EvPrompt prompt_text]. auto.
    + destruct (os_stat h line) as [kind|] eqn:Hst.
      * erewrite ask_eclipsedir_accept by eassumption.
        exists [line], (accepted line). auto.
      * rewrite ask_eclipsedir_reject by assumption.
        destruct (IH {| stdin := rest; trace := tr ++ rejected [line] |})
          as (consumed & tl & Hin & Htr & Hst').
        cbn [stdin trace] in *.
        exists (line :: consumed), (rejected [line] ++ tl).
        split; [now rewrite Hin at 1|].
        split; [now rewrite Htr, app_assoc|].
        rewrite stat_paths_app, Hst'. reflexivity.
Qed.

(** X3: in every run, however it ends, the paths the script asks the file
    system about are exactly the lines it has read from standard input, in
    the order it read them.  So it never looks up the value of
    [ECLIPSEDIR], nor the include or library directory it derives; and with
    [ECLIPSEDIR] set it reads no line and looks up nothing. *)
Theorem setup_py_looks_up_lines_read h w :
  exists consumed tl,
    stdin w = consumed ++ stdin (snd (setup_py h w)) /\
    trace (snd (setup_py h w)) = trace w ++ tl /\
    stat_paths tl = consumed /\
    (is_Some (environ h !! "ECLIPSEDIR") -> consumed = []).
Proof.
  assert (Hacq : exists consumed tl,
             stdin w = consumed ++ stdin (snd (eclipsedir h w)) /\
             trace (snd (eclipsedir h w)) = trace w ++ tl /\
             stat_paths tl = consumed /\
             (is_Some (environ h !! "ECLIPSEDIR") -> consumed = [])).
  { destruct (environ h !! "ECLIPSEDIR") as [value|] eqn:Henv.
    - rewrite (eclipsedir_present _ _ _ Henv). exists [], []. cbn.
      now rewrite app_nil_r.
    - rewrite eclipsedir_absent by assumption.
      destruct (ask_eclipsedir_looks_up_lines h (S (length (stdin w))) w)
        as (consumed & tl & Hin & Htr & Hst).
      exists consumed, tl. repeat split; try assumption.
      intros [value Hsome]. discriminate. }
  destruct Hacq as (consumed & tl & Hin & Htr & Hst & Hset).
  unfold setup_py, bind.
  destruct (eclipsedir h w) as [[root|e|] w1]; cbn [snd] in *;
    [|now exists consumed, tl..].
  unfold arch, bind, ret, print, raise, log.
  repeat case_decide; cbn [snd stdin trace].
  - now exists consumed, tl.
  - now exists consumed, tl.
  - exists consumed, (tl ++ [EvPrint "Platform not supported"]).
    repeat split; try assumption.
    + now rewrite Htr, app_assoc.
    + rewrite stat_paths_app, Hst. cbn. now rewrite app_nil_r.
Qed.

(** ** What the run depends on *)

Lemma ask_eclipsedir_reads_only h1 h2 fuel : forall w,
  (forall p, p ∈ stdin w -> is_Some (os_stat h1 p) <-> is_Some (os_stat h2 p)) ->
  ask_eclipsedir h1 fuel w = ask_eclipsedir h2 fuel w.
Proof.
  induction fuel as [|fuel IH]; intros [lines tr] Hsame; [reflexivity|].
  destruct lines as [|line rest].
  - now rewrite !ask_eclipsedir_eof.
  - assert (Hrest : forall p, p ∈ rest ->
              is_Some (os_stat h1 p) <-> is_Some (os_stat h2 p)).
    { intros p Hp. apply Hsame. cbn [stdin]. now apply list_elem_of_further. }
    specialize (Hsame line (list_elem_of_here _ _)).
    destruct (os_stat h1 line) as [k1|] eqn:H1, (os_stat h2 line) as [k2|] eqn:H2.
    + now rewrite (ask_eclipsedir_accept h1 _ _ _ _ _ H1),
                  (ask_eclipsedir_accept h2 _ _ _ _ _ H2).
    + destruct (proj1 Hsame) as [? ?]; [eauto|discriminate].
    + destruct (proj2 Hsame) as [? ?]; [eauto|discriminate].
    + rewrite !ask_eclipsedir_reject by assumption. now apply IH.
Qed.

(** X4: of its host the script uses three things only: whether
    [ECLIPSEDIR] is set and to what, the platform, and whether the lines
    of standard input exist on the file system.  On two hosts that agree
    on these it runs alike, whatever else is in the environment, whatever
    kind of entry the lines name, and whatever else is on the disk. *)
Theorem setup_py_reads_only h1 h2 w :
  environ h1 !! "ECLIPSEDIR" = environ h2 !! "ECLIPSEDIR" ->
  platform_system h1 = platform_system h2 ->
  (forall p, p ∈ stdin w -> is_Some (os_stat h1 p) <-> is_Some (os_stat h2 p)) ->
  setup_py h1 w = setup_py h2 w.
Proof.
  intros Henv Hsys Hfs.
  assert (Hacq : eclipsedir h1 w = eclipsedir h2 w).
  { unfold eclipsedir. rewrite Henv.
    destruct (environ h2 !! "ECLIPSEDIR"); [reflexivity|].
    now apply ask_eclipsedir_reads_only. }
  unfold setup_py. unfold bind at 1 3. rewrite Hacq.
  destruct (eclipsedir h2 w) as [[root|e|] w1]; try reflexivity.
  unfold bind, arch. rewrite Hsys.
  repeat case_decide; try reflexivity.
  - unfold ret, pyclp_module, eclipse_lib_path, eclise_include_path, os_path_join.
    now rewrite Hsys.
  - unfold ret, pyclp_module, eclipse_lib_path, eclise_include_path, os_path_join.
    now rewrite Hsys.
Qed.

Lemma setup_py_reads_only_witness :
  setup_py (host ∅ "Linux") (start ["/nonexistent"; "/opt/eclipse"]) =
  setup_py other_host (start ["/nonexistent"; "/opt/eclipse"]).
Proof.
  apply (setup_py_reads_only (host ∅ "Linux") other_host).
  - reflexivity.
  - reflexivity.
  - intros p Hp. cbn [stdin start] in Hp.
    apply elem_of_cons in Hp as [->|Hp].
    + split; intros [kind Hk]; discriminate.
    + apply elem_of_cons in Hp as [->|Hp].
      * split; intros _; eexists; reflexivity.
      * now apply not_elem_of_nil in Hp.
Defined.

(** ** The root and the directories derived from it, on Linux *)

Lemma append_inv_l r x y : r +:+ x = r +:+ y -> x = y.
Proof.
  induction r as [|c r IH]; [auto|].
  rewrite !append_cons. intros Heq. injection Heq as Heq. auto.
Qed.

Lemma trailing_slash_joined_alike root a :
  PyStr.is_empty root = false ->
  PyStr.endswith root "/" = false ->
  forall sub,
    PyStr.startswith sub posixpath.sep = false ->
    posixpath.join (root +:+ "/") [sub; a] = posixpath.join root [sub; a].
Proof.
  intros Hne Hend sub Hsub. unfold posixpath.join. cbn [fold_left]. f_equal.
  unfold posixpath.join_step. rewrite Hsub.
  unfold posixpath.sep. rewrite endswith_append, Hne, Hend, orb_true_r.
  cbn [orb]. apply append_assoc.
Qed.

(** X5: on Linux a slash at the end of the root makes no difference
    exactly for the roots that are not empty and do not end with a slash.
    Such a root, and the same root with a slash added, give the same
    description of the extension module.  For the empty root, and for a
    root that ends with a slash already, the two descriptions differ (for a
    tag that does not start with a slash, as the two tags of the script). *)
Theorem trailing_slash_is_ignored h root a :
  platform_system h = "Linux" ->
  (PyStr.is_empty root = false ->
   PyStr.endswith root "/" = false ->
   pyclp_module h (root +:+ "/") a = pyclp_module h root a) /\
  (PyStr.startswith a "/" = false ->
   pyclp_module h (root +:+ "/") a = pyclp_module h root a ->
   PyStr.is_empty root = false /\ PyStr.endswith root "/" = false).
Proof.
  intros Hsys. split.
  - intros Hne Hend.
    unfold pyclp_module, eclipse_lib_path, eclise_include_path.
    rewrite os_path_join_linux by assumption.
    now rewrite !(trailing_slash_joined_alike root a Hne Hend) by reflexivity.
  - intros Ha Heq.
    assert (Hinc : eclise_include_path h (root +:+ "/") a = eclise_include_path h root a).
    { apply (f_equal Extension.include_dirs) in Heq. now injection Heq. }
    unfold eclise_include_path in Hinc.
    rewrite os_path_join_linux in Hinc by assumption.
    rewrite !(posix_join_below _ "i" "nclude") in Hinc
      by (reflexivity || discriminate || assumption).
    unfold posix_below in Hinc.
    rewrite is_empty_append, endswith_append in Hinc. cbn [orb] in Hinc.
    destruct root as [|c root]; [discriminate Hinc|].
    split; [reflexivity|].
    cbn [PyStr.is_empty orb] in Hinc.
    destruct (PyStr.endswith (String c root) "/"); [|reflexivity].
    rewrite append_assoc in Hinc. apply append_inv_l in Hinc. discriminate Hinc.
Qed.

Lemma trailing_slash_is_ignored_witness :
  pyclp_module (host ∅ "Linux") ("/opt/eclipse" +:+ "/") "i386_linux" =
    pyclp_module (host ∅ "Linux") "/opt/eclipse" "i386_linux" /\
  pyclp_module (host ∅ "Linux") ("" +:+ "/") "i386_linux" <>
    pyclp_module (host ∅ "Linux") "" "i386_linux" /\
  pyclp_module (host ∅ "Linux") ("/opt/" +:+ "/") "i386_linux" <>
    pyclp_module (host ∅ "Linux") "/opt/" "i386_linux".
Proof.
  split; [|split].
  - apply (proj1 (trailing_slash_is_ignored (host ∅ "Linux") "/opt/eclipse" "i386_linux"
                    eq_refl)); reflexivity.
  - intros Heq.
    destruct (proj2 (trailing_slash_is_ignored (host ∅ "Linux") "" "i386_linux" eq_refl)
                eq_refl Heq) as [Hne _].
    discriminate Hne.
  - intros Heq.
    destruct (proj2 (trailing_slash_is_ignored (host ∅ "Linux") "/opt/" "i386_linux" eq_refl)
                eq_refl Heq) as [_ Hend].
    discriminate Hend.
Defined.

Lemma startswith_sep_head x s s' :
  PyStr.startswith (String x s) "/" = PyStr.startswith (String x s') "/".
Proof.
  unfold PyStr.startswith. cbn [String.prefix].
  destruct (ascii_dec "/" x); [|reflexivity]. now destruct s, s'.
Qed.

Lemma startswith_posix_below root c sub a :
  c <> "/"%char ->
  PyStr.startswith (posix_below root (String c sub) a) "/" = PyStr.startswith root "/".
Proof.
  intros Hc. unfold posix_below.
  destruct root as [|x root].
  - cbn [PyStr.is_empty orb].
    change ("" +:+ String c sub +:+ "/" +:+ a) with (String c (sub +:+ "/" +:+ a)).
    unfold PyStr.startswith. cbn [String.prefix].
    destruct (ascii_dec "/" c) as [Heq|_]; [now elim Hc|reflexivity].
  - cbn [PyStr.is_empty orb].
    destruct (PyStr.endswith (String x root) "/"); rewrite append_cons;
      apply startswith_sep_head.
Qed.

(** X6: on Linux the include and library directories are absolute paths
    exactly when the root is: a relative root (the empty one among them)
    gives directories relative to the directory the build runs in. *)
Theorem derived_paths_absolute_iff_root h w a root :
  platform_system h = "Linux" ->
  arch h w = (Return a, w) ->
  PyStr.startswith (eclise_include_path h root a) "/" = PyStr.startswith root "/" /\
  PyStr.startswith (eclipse_lib_path h root a) "/" = PyStr.startswith root "/".
Proof.
  intros Hsys Harch. unfold eclise_include_path, eclipse_lib_path.
  rewrite os_path_join_linux by assumption.
  destruct (arch_returns _ _ _ _ Harch) as [_ [[_ ->]|[Hwin _]]];
    [|rewrite Hsys in Hwin; discriminate].
  rewrite (posix_join_below root "i" "nclude") by (reflexivity || discriminate).
  rewrite (posix_join_below root "l" "ib") by (reflexivity || discriminate).
  split; apply startswith_posix_below; discriminate.
Qed.

Lemma derived_paths_absolute_iff_root_witness :
  PyStr.startswith (eclise_include_path (host ∅ "Linux") "eclipse/6.0" "i386_linux") "/" = false /\
  PyStr.startswith (eclipse_lib_path (host ∅ "Linux") "eclipse/6.0" "i386_linux") "/" = false.
Proof.
  apply (derived_paths_absolute_iff_root (host ∅ "Linux") (start []) "i386_linux" "eclipse/6.0");
    reflexivity.
Defined.
